(** * appveyor_artifacts.py: a shallow embedding of the build/job/artifact core

    The Python module queries the AppVeyor REST API, finds the build of the
    current commit / pull request / tag, polls its jobs and lists artifacts.
    This file embeds [query_api], [validate], [get_build_version],
    [get_job_ids], [get_artifacts_urls] and [main] as Rocq functions.

    Modelling choices:
    - JSON values decoded by [response.json()] are the inductive [json];
      a JSON object is the association list of its members, and a lookup
      takes the last binding, as [json.loads] builds its dict.
    - Python exceptions are the inductive [exn].  [HandledError] carries the
      line logged by [log.error] just before it is raised, which is how the
      program tells its failures apart.
    - Strings are ASCII [String.string]s; Python 3 semantics.
    - The network and the clock are explicit: the remote answers through an
      oracle [answer n e] (the [n]-th request, to endpoint [e]), each request
      takes [rtt n] time units, and [time.sleep] advances the clock.  The
      trace of requests and sleeps is recorded in the world. *)

From Stdlib Require Import String Ascii List ZArith Bool Lia.
Import ListNotations.
Open Scope string_scope.
Open Scope Z_scope.
#[local] Set Warnings "-register-all".

(** ** Python values *)

Inductive json : Type :=
| JNull
| JBool (b : bool)
| JNum (z : Z)
| JStr (s : string)
| JArr (l : list json)
| JObj (l : list (string * json)).

(** The line passed to [log.error] right before [raise HandledError]. *)
Inductive logged : Type :=
| LogReplyTimeout                             (* 'Timed out waiting for reply from server.' *)
| LogHTTP (status : Z) (message : json)       (* 'HTTP %d: %s' *)
| LogHTTPUnknown (status : Z) (text : string) (* 'HTTP %d: Unknown error: %s' *)
| LogParseJSON (text : string)                (* 'Failed to parse JSON: %s' *)
| LogContradiction                            (* '--always-job-dirs and --no-job-dirs used.' *)
| LogBadCommit                                (* 'No or invalid git commit obtained.' *)
| LogBadDir (dir : string)                    (* 'Not a directory or doesn't exist: %s' *)
| LogBadNoJobDirs                             (* '--no-job-dirs has invalid value.' *)
| LogBadOwner                                 (* 'No or invalid repo owner name obtained.' *)
| LogBadPullRequest                           (* '--pull-request is not a digit.' *)
| LogBadRepo                                  (* 'No or invalid repo name obtained.' *)
| LogBadTag                                   (* 'Invalid git tag obtained.' *)
| LogBadTimeout                               (* '--timeout is not a digit.' *)
| LogMissingKey (key : string)                (* 'Bad JSON reply: "%s" key missing.' *)
| LogJobNameNotFound (name : string)          (* 'Job name "%s" not found.' *)
| LogQueueTimeout                             (* 'Timed out waiting for job to be queued or build not found.' *)
| LogJobFailed (owner repo : string) (job : json) (* 'AppVeyor job failed: <url of job>' *)
| LogUnknownStatus                            (* 'Got unknown status from AppVeyor API: %s' *)
| LogPollTimeout.                             (* 'Timed out waiting for job%s to finish.' *)

Inductive exn : Type :=
| HandledError (l : logged)
| TypeError
| ValueError
| KeyError
| AttributeError
| ConnectionError
| IndexError.

Inductive pyresult (A : Type) : Type :=
| Ok (a : A)
| Raise (e : exn).
Arguments Ok {A} a.
Arguments Raise {A} e.

Definition pbind {A B} (r : pyresult A) (k : A -> pyresult B) : pyresult B :=
  match r with Ok a => k a | Raise e => Raise e end.

Notation "'let*' x := c 'in' k" := (pbind c (fun x => k))
  (at level 200, x name, c at level 100, k at level 200).

Fixpoint mapM {A B} (f : A -> pyresult B) (l : list A) : pyresult (list B) :=
  match l with
  | [] => Ok []
  | x :: r => let* y := f x in let* ys := mapM f r in Ok (y :: ys)
  end.

(** Dict lookup; [json.loads] keeps the last of duplicate keys. *)
Definition dict_lookup (k : string) (l : list (string * json)) : option json :=
  fold_left (fun acc kv => if String.eqb (fst kv) k then Some (snd kv) else acc) l None.

(** Substring test, for [k in s] on two strings. *)
Fixpoint is_prefix (p s : string) : bool :=
  match p, s with
  | EmptyString, _ => true
  | String a p', String b s' => Ascii.eqb a b && is_prefix p' s'
  | _, _ => false
  end.

Fixpoint is_substring (p s : string) : bool :=
  is_prefix p s || match s with EmptyString => false | String _ s' => is_substring p s' end.

Fixpoint chars (s : string) : list json :=
  match s with EmptyString => [] | String c s' => JStr (String c EmptyString) :: chars s' end.

(** [k in v] for a str [k]. *)
Definition py_in (k : string) (v : json) : pyresult bool :=
  match v with
  | JObj l => Ok (match dict_lookup k l with Some _ => true | None => false end)
  | JArr l => Ok (existsb (fun x => match x with JStr s => String.eqb s k | _ => false end) l)
  | JStr s => Ok (is_substring k s)
  | _ => Raise TypeError
  end.

(** [v[k]] for a str [k]. *)
Definition py_getitem (v : json) (k : string) : pyresult json :=
  match v with
  | JObj l => match dict_lookup k l with Some x => Ok x | None => Raise KeyError end
  | _ => Raise TypeError
  end.

(** [v.get(k)]: only dicts have [get]; a missing key gives Python [None]. *)
Definition py_get (v : json) (k : string) : pyresult (option json) :=
  match v with
  | JObj l => Ok (dict_lookup k l)
  | _ => Raise AttributeError
  end.

(** [for x in v]: a list yields its items, a dict its keys, a str its characters. *)
Definition py_iter (v : json) : pyresult (list json) :=
  match v with
  | JArr l => Ok l
  | JObj l => Ok (map (fun kv => JStr (fst kv)) l)
  | JStr s => Ok (chars s)
  | _ => Raise TypeError
  end.

(** [s == v] for a str [s] and the result of [dict.get] (a str equals only a str). *)
Definition py_eq_str (s : string) (v : option json) : bool :=
  match v with Some (JStr s') => String.eqb s s' | _ => false end.

Definition py_eq_str_json (s : string) (v : json) : bool := py_eq_str s (Some v).

(** Truth value of a JSON value / of [None]. *)
Definition truthy (v : json) : bool :=
  match v with
  | JNull => false
  | JBool b => b
  | JNum z => negb (z =? 0)
  | JStr s => negb (String.eqb s "")
  | JArr l => match l with [] => false | _ => true end
  | JObj l => match l with [] => false | _ => true end
  end.

Definition truthy_opt (v : option json) : bool :=
  match v with None => false | Some j => truthy j end.

Definition nonempty (s : string) : bool := negb (String.eqb s "").

(** Operands of the ordering comparison in [main]'s timeout check. *)
Inductive pyval : Type :=
| PyNum (z : Z)
| PyStr (s : string).

Fixpoint str_ge (a b : string) : bool :=
  match a, b with
  | _, EmptyString => true
  | EmptyString, String _ _ => false
  | String x a', String y b' =>
      let nx := nat_of_ascii x in let ny := nat_of_ascii y in
      if Nat.ltb ny nx then true else if Nat.ltb nx ny then false else str_ge a' b'
  end.

(** Python 3 [a >= b]: numbers with numbers, strs with strs; a number against a
    str raises [TypeError]. *)
Definition py_ge (a b : pyval) : pyresult bool :=
  match a, b with
  | PyNum x, PyNum y => Ok (y <=? x)
  | PyStr x, PyStr y => Ok (str_ge x y)
  | _, _ => Raise TypeError
  end.

(** ** Configuration and [validate] *)

(** The dict built by [get_arguments]. *)
Record config : Type := mkConfig {
  always_job_dirs : bool;
  commit : string;
  dir : string;
  job_name : string;
  no_job_dirs : string;
  owner : string;
  pull_request : string;
  repo : string;
  tag : string;
  timeout : string;
  verbose : bool
}.

Definition is_hex_lower (c : ascii) : bool :=
  let n := nat_of_ascii c in
  (Nat.leb 48 n && Nat.leb n 57) || (Nat.leb 97 n && Nat.leb n 102).

Definition is_ascii_digit (c : ascii) : bool :=
  let n := nat_of_ascii c in Nat.leb 48 n && Nat.leb n 57.

(** The class [0-9a-zA-Z\._-]. *)
Definition is_general (c : ascii) : bool :=
  let n := nat_of_ascii c in
  is_ascii_digit c || (Nat.leb 97 n && Nat.leb n 122) || (Nat.leb 65 n && Nat.leb n 90)
  || Nat.eqb n 46 || Nat.eqb n 95 || Nat.eqb n 45.

Fixpoint all_chars (p : ascii -> bool) (s : string) : bool :=
  match s with EmptyString => true | String c s' => p c && all_chars p s' end.

(** [s] is [t ++ "\n"]: the one place besides the end where Python's [$] matches. *)
Fixpoint strip_final_newline (s : string) : option string :=
  match s with
  | EmptyString => None
  | String c EmptyString => if Ascii.eqb c "010"%char then Some EmptyString else None
  | String c s' => option_map (String c) (strip_final_newline s')
  end.

(** [re.match(r'^...$', s)]: the body must match the whole string or the whole
    string minus one final newline. *)
Definition re_match_dollar (body : string -> bool) (s : string) : bool :=
  body s || match strip_final_newline s with Some t => body t | None => false end.

(** REGEX_COMMIT = [^[0-9a-f]{7,40}$] *)
Definition REGEX_COMMIT_match (s : string) : bool :=
  re_match_dollar (fun t => all_chars is_hex_lower t
                            && Nat.leb 7 (String.length t) && Nat.leb (String.length t) 40) s.

(** REGEX_GENERAL = [^[0-9a-zA-Z\._-]+$] *)
Definition REGEX_GENERAL_match (s : string) : bool :=
  re_match_dollar (fun t => all_chars is_general t && nonempty t) s.

(** [str.isdigit()] on an ASCII string. *)
Definition isdigit (s : string) : bool := all_chars is_ascii_digit s && nonempty s.

Section Validate.
(** [os.path.isdir] *)
Variable isdir : string -> bool.

Definition validate (cfg : config) : pyresult unit :=
  if always_job_dirs cfg && nonempty (no_job_dirs cfg) then Raise (HandledError LogContradiction)
  else if nonempty (commit cfg) && negb (REGEX_COMMIT_match (commit cfg)) then Raise (HandledError LogBadCommit)
  else if nonempty (dir cfg) && negb (isdir (dir cfg)) then Raise (HandledError (LogBadDir (dir cfg)))
  else if negb (existsb (String.eqb (no_job_dirs cfg)) [""; "rename"; "overwrite"; "skip"])
    then Raise (HandledError LogBadNoJobDirs)
  else if negb (nonempty (owner cfg)) || negb (REGEX_GENERAL_match (owner cfg)) then Raise (HandledError LogBadOwner)
  else if nonempty (pull_request cfg) && negb (isdigit (pull_request cfg)) then Raise (HandledError LogBadPullRequest)
  else if negb (nonempty (repo cfg)) || negb (REGEX_GENERAL_match (repo cfg)) then Raise (HandledError LogBadRepo)
  else if nonempty (tag cfg) && negb (REGEX_GENERAL_match (tag cfg)) then Raise (HandledError LogBadTag)
  else if nonempty (timeout cfg) && negb (isdigit (timeout cfg)) then Raise (HandledError LogBadTimeout)
  else Ok tt.
End Validate.

(** ** Network: [requests.get] and [query_api] *)

(** The endpoints the module formats: [/projects/{0}/{1}/history?recordsNumber=10],
    [/projects/{0}/{1}/build/{2}] and [/buildjobs/{0}/artifacts], with their
    format arguments. *)
Inductive endpoint : Type :=
| EHistory (owner repo : string)
| EBuild (owner repo : string) (version : json)
| EArtifacts (job : json).

(** What [requests.get(url, headers=..., timeout=10)] gives: one of the timeout
    exceptions, another connection failure, or a response with its status
    code, its text and the result of decoding it ([None]: [response.json()]
    raises [ValueError]). *)
Inductive transport : Type :=
| TTimeout
| TConnError
| TResp (status : Z) (text : string) (body : option json).

(** [response.ok]: [raise_for_status] raises on 4xx and 5xx only. *)
Definition response_ok (status : Z) : bool := negb ((400 <=? status) && (status <? 600)).

(** [response.json()] *)
Definition response_json (body : option json) : pyresult json :=
  match body with Some j => Ok j | None => Raise ValueError end.

(** The body of [query_api] after the request. *)
Definition query_api_response (t : transport) : pyresult json :=
  match t with
  | TTimeout => Raise (HandledError LogReplyTimeout)
  | TConnError => Raise ConnectionError
  | TResp status text body =>
      if negb (response_ok status) then
        let* j := response_json body in
        let* message := py_get j "message" in
        if truthy_opt message then
          Raise (HandledError (LogHTTP status (match message with Some m => m | None => JNull end)))
        else Raise (HandledError (LogHTTPUnknown status text))
      else
        match response_json body with
        | Ok j => Ok j
        | Raise ValueError => Raise (HandledError (LogParseJSON text))
        | Raise e => Raise e
        end
  end.

(** ** The world and the program monad *)

Inductive event : Type :=
| EvQuery (e : endpoint)
| EvSleep (secs : Z).

Record world : Type := mkWorld {
  trace : list event;
  clock : Z
}.

Definition M (A : Type) : Type := world -> pyresult A * world.

Definition mret {A} (a : A) : M A := fun w => (Ok a, w).
Definition mraise {A} (e : exn) : M A := fun w => (Raise e, w).
Definition mlift {A} (r : pyresult A) : M A := fun w => (r, w).
Definition mbind {A B} (c : M A) (k : A -> M B) : M B :=
  fun w => match c w with
           | (Ok a, w') => k a w'
           | (Raise e, w') => (Raise e, w')
           end.

Notation "x <- c ;; k" := (mbind c (fun x => k))
  (at level 61, c at next level, right associativity).

Definition nqueries (w : world) : nat :=
  List.length (filter (fun ev => match ev with EvQuery _ => true | _ => false end) (trace w)).

(** ** The program *)

Definition SLEEP_FOR : Z := 5.

(** [time.sleep(secs)] *)
Definition time_sleep (secs : Z) : M unit :=
  fun w => (Ok tt, mkWorld (trace w ++ [EvSleep secs]) (clock w + secs)).

(** [time.time()] *)
Definition time_time : M Z := fun w => (Ok (clock w), w).

(** The [for build in json_data['builds']] loop of [get_build_version]. *)
Fixpoint find_build (cfg : config) (builds : list json) : pyresult (option json) :=
  match builds with
  | [] => Ok None
  | build :: rest =>
      let* is_tag := (if nonempty (tag cfg)
                      then let* t := py_get build "tag" in Ok (py_eq_str (tag cfg) t)
                      else Ok false) in
      if is_tag then let* v := py_getitem build "version" in Ok (Some v) else
      let* is_pr := (if nonempty (pull_request cfg)
                     then let* p := py_get build "pullRequestId" in Ok (py_eq_str (pull_request cfg) p)
                     else Ok false) in
      if is_pr then let* v := py_getitem build "version" in Ok (Some v) else
      let* c := py_getitem build "commitId" in
      if py_eq_str_json (commit cfg) c then let* v := py_getitem build "version" in Ok (Some v)
      else find_build cfg rest
  end.

(** The [for job in json_data['build']['jobs']] loop of [get_job_ids]. *)
Fixpoint collect_jobs (cfg : config) (jobs : list json) (all_jobs : list (json * json))
  : pyresult (list (json * json)) :=
  match jobs with
  | [] =>
      if nonempty (job_name cfg) then Raise (HandledError (LogJobNameNotFound (job_name cfg)))
      else Ok all_jobs
  | job :: rest =>
      let* hit := (if nonempty (job_name cfg)
                   then let* n := py_getitem job "name" in Ok (py_eq_str_json (job_name cfg) n)
                   else Ok false) in
      let* id := py_getitem job "jobId" in
      let* st := py_getitem job "status" in
      if hit then Ok [(id, st)] else collect_jobs cfg rest (all_jobs ++ [(id, st)])
  end.

Definition hashable (v : json) : bool :=
  match v with JArr _ | JObj _ => false | _ => true end.

(** [set(l)]: a dict or a list is unhashable.  The set is kept as the list of
    its elements; the code only tests membership and equality on it. *)
Definition py_set (l : list json) : pyresult (list json) :=
  if forallb hashable l then Ok l else Raise TypeError.

(** [s in statuses] *)
Definition set_mem (s : string) (statuses : list json) : bool :=
  existsb (py_eq_str_json s) statuses.

(** [statuses == set([s])] *)
Definition set_eq_singleton (s : string) (statuses : list json) : bool :=
  existsb (py_eq_str_json s) statuses && forallb (py_eq_str_json s) statuses.

(** Lines 385-400 of [main]: [Ok true] is [break], [Ok false] goes on to the
    timeout check.  [statuses - valid_statuses] subtracts a list from a set,
    which raises [TypeError] while the arguments of [log.error] are built. *)
Definition poll_status (owner repo : string) (job_ids : list (json * json)) : pyresult bool :=
  let* statuses := py_set (map snd job_ids) in
  if set_mem "failed" statuses then
    match map fst (filter (fun i => py_eq_str_json "failed" (snd i)) job_ids) with
    | job :: _ => Raise (HandledError (LogJobFailed owner repo job))
    | [] => Raise IndexError
    end
  else if set_eq_singleton "success" statuses then Ok true
  else if set_mem "running" statuses then Ok false
  else if set_mem "queued" statuses then Ok false
  else Raise TypeError.

Section Program.
(** The remote service: the answer to the [n]-th request, and its duration. *)
Variable answer : nat -> endpoint -> transport.
Variable rtt : nat -> Z.
(** [os.path.isdir] *)
Variable isdir : string -> bool.

(** [query_api(endpoint)] *)
Definition query_api (e : endpoint) : M json :=
  fun w => let n := nqueries w in
           (query_api_response (answer n e),
            mkWorld (trace w ++ [EvQuery e]) (clock w + rtt n)).

Definition get_build_version (cfg : config) : M (option json) :=
  json_data <- query_api (EHistory (owner cfg) (repo cfg)) ;;
  has_builds <- mlift (py_in "builds" json_data) ;;
  if negb has_builds then mraise (HandledError (LogMissingKey "builds")) else
  builds <- mlift (py_getitem json_data "builds") ;;
  l <- mlift (py_iter builds) ;;
  mlift (find_build cfg l).

Definition get_job_ids (build_version : json) (cfg : config) : M (list (json * json)) :=
  json_data <- query_api (EBuild (owner cfg) (repo cfg) build_version) ;;
  has_build <- mlift (py_in "build" json_data) ;;
  if negb has_build then mraise (HandledError (LogMissingKey "build")) else
  build <- mlift (py_getitem json_data "build") ;;
  has_jobs <- mlift (py_in "jobs" build) ;;
  if negb has_jobs then mraise (HandledError (LogMissingKey "jobs")) else
  jobs <- mlift (py_getitem build "jobs") ;;
  l <- mlift (py_iter jobs) ;;
  mlift (collect_jobs cfg l []).

Fixpoint get_artifacts_urls_from (job_ids : list json) (artifacts : list (json * json))
  : M (list (json * json)) :=
  match job_ids with
  | [] => mret artifacts
  | job :: rest =>
      json_data <- query_api (EArtifacts job) ;;
      l <- mlift (py_iter json_data) ;;
      file_names <- mlift (mapM (fun artifact => py_getitem artifact "fileName") l) ;;
      get_artifacts_urls_from rest (artifacts ++ map (pair job) file_names)
  end.

Definition get_artifacts_urls (job_ids : list json) : M (list (json * json)) :=
  get_artifacts_urls_from job_ids [].

(** [for _ in range(attempts)] waiting for the build to be queued. *)
Fixpoint wait_queued (attempts : nat) (cfg : config) (build_version : option json)
  : M (option json) :=
  match attempts with
  | O => mret build_version
  | S k =>
      bv <- get_build_version cfg ;;
      if truthy_opt bv then mret bv
      else (_ <- time_sleep SLEEP_FOR ;; wait_queued k cfg bv)
  end.

(** One pass of the [while True] loop of [main]: [Some job_ids] is [break],
    [None] means the loop goes round again. *)
Definition poll_iteration (cfg : config) (build_version : json) (start_time : Z)
  : M (option (list (json * json))) :=
  job_ids <- get_job_ids build_version cfg ;;
  done <- mlift (poll_status (owner cfg) (repo cfg) job_ids) ;;
  if done then mret (Some job_ids) else
  (if nonempty (timeout cfg) then
     now <- time_time ;;
     over <- mlift (py_ge (PyNum (now - start_time)) (PyStr (timeout cfg))) ;;
     if over then mraise (HandledError LogPollTimeout)
     else (_ <- time_sleep SLEEP_FOR ;; mret None)
   else (_ <- time_sleep SLEEP_FOR ;; mret None)).

(** The [while True] loop, run for at most [fuel] passes ([None]: still polling). *)
Fixpoint poll_loop (fuel : nat) (cfg : config) (build_version : json) (start_time : Z)
  : M (option (list (json * json))) :=
  match fuel with
  | O => mret None
  | S f =>
      r <- poll_iteration cfg build_version start_time ;;
      match r with
      | Some job_ids => mret (Some job_ids)
      | None => poll_loop f cfg build_version start_time
      end
  end.

(** [main(config)], with the polling loop run for at most [fuel] passes.
    It returns the artifact list it computes ([None]: still polling). *)
Definition main (fuel : nat) (cfg : config) : M (option (list (json * json))) :=
  _ <- mlift (validate isdir cfg) ;;
  bv <- wait_queued 3 cfg None ;;
  match bv with
  | Some build_version =>
      if negb (truthy build_version) then mraise (HandledError LogQueueTimeout) else
      start_time <- time_time ;;
      r <- poll_loop fuel cfg build_version start_time ;;
      match r with
      | None => mret None
      | Some job_ids =>
          artifacts <- get_artifacts_urls (map fst job_ids) ;;
          mret (Some artifacts)
      end
  | None => mraise (HandledError LogQueueTimeout)
  end.
End Program.

Open Scope list_scope.

(** ** [get_arguments] and [entry_point] *)

(** The dict [docopt] returns for the options [get_arguments] reads: flags are
    booleans, options with a value are [None] or a str.  (The version string
    looked up through [pkg_resources] only feeds [--version].) *)
Record docopt_args : Type := mkArgs {
  arg_always_job_dirs : bool;
  arg_commit : option string;
  arg_dir : option string;
  arg_job_name : option string;
  arg_no_job_dirs : option string;
  arg_owner_name : option string;
  arg_pull_request : option string;
  arg_repo_name : option string;
  arg_tag_name : option string;
  arg_timeout : option string;
  arg_verbose : bool
}.

(** An environment, as the pairs of a dict (a later pair overrides an earlier one). *)
Definition environ : Type := list (string * string).

(** [environ.get(k)] *)
Definition env_lookup (env : environ) (k : string) : option string :=
  fold_left (fun acc kv => if String.eqb (fst kv) k then Some (snd kv) else acc) env None.

(** [environ.get(k, d)] *)
Definition env_get (env : environ) (k d : string) : string :=
  match env_lookup env k with Some v => v | None => d end.

(** [s.split(sep)] for a one-character separator. *)
Fixpoint split_on (sep : ascii) (s : string) : list string :=
  match s with
  | EmptyString => [EmptyString]
  | String c s' =>
      if Ascii.eqb c sep then EmptyString :: split_on sep s'
      else match split_on sep s' with
           | w :: ws => String c w :: ws
           | [] => [String c EmptyString]
           end
  end.

(** [l[n]] *)
Definition py_index {A} (l : list A) (n : nat) : pyresult A :=
  match nth_error l n with Some x => Ok x | None => Raise IndexError end.

(** [o or d] for [o] a str or [None]. *)
Definition py_or (o : option string) (d : string) : string :=
  match o with Some v => if nonempty v then v else d | None => d end.

Definition slash : ascii := "/"%char.

(** [get_arguments(argv, environ)], after [docopt] has produced [args]. *)
Definition get_arguments (os_environ : environ) (environ_arg : option environ) (args : docopt_args)
  : pyresult config :=
  let env := match environ_arg with Some ((_ :: _) as e) => e | _ => os_environ end in
  let* travis :=
    (if match env_lookup env "TRAVIS" with Some v => String.eqb v "true" | None => false end then
       let commit := env_get env "TRAVIS_COMMIT" "" in
       let* owner := py_index (split_on slash (env_get env "TRAVIS_REPO_SLUG" "/")) 0 in
       let pull_request0 := env_get env "TRAVIS_PULL_REQUEST" "" in
       let pull_request := if String.eqb pull_request0 "false" then "" else pull_request0 in
       let* repo := py_index (split_on slash (env_get env "TRAVIS_REPO_SLUG" "/")) 1 in
       let tag := env_get env "TRAVIS_TAG" "" in
       Ok (commit, owner, pull_request, repo, tag)
     else Ok ("", "", "", "", "")) in
  let '(commit, owner, pull_request, repo, tag) := travis in
  Ok (mkConfig (arg_always_job_dirs args)
               (py_or (arg_commit args) commit)
               (py_or (arg_dir args) "")
               (py_or (arg_job_name args) "")
               (py_or (arg_no_job_dirs args) "")
               (py_or (arg_owner_name args) owner)
               (py_or (arg_pull_request args) pull_request)
               (py_or (arg_repo_name args) repo)
               (py_or (arg_tag_name args) tag)
               (py_or (arg_timeout args) "")
               (arg_verbose args)).

(** The dict [get_arguments] returns, with its keys. *)
Definition config_dict (cfg : config) : json :=
  JObj [("always_job_dirs", JBool (always_job_dirs cfg)); ("commit", JStr (commit cfg));
        ("dir", JStr (dir cfg)); ("job_name", JStr (job_name cfg));
        ("no_job_dirs", JStr (no_job_dirs cfg)); ("owner", JStr (owner cfg));
        ("pull_request", JStr (pull_request cfg)); ("repo", JStr (repo cfg));
        ("tag", JStr (tag cfg)); ("timeout", JStr (timeout cfg)); ("verbose", JBool (verbose cfg))].

(** How the process ends: an exit status, an exception escaping
    [entry_point], or (for a bounded run of the polling loop) still polling. *)
Inductive outcome : Type :=
| Exit (code : Z)
| Uncaught (e : exn)
| StillPolling.

(** [entry_point()]: the SIGINT handler and the logging setup do not change
    the outcome and are left out. *)
Definition entry_point (answer : nat -> endpoint -> transport) (rtt : nat -> Z)
  (isdir : string -> bool) (os_environ : environ) (args : docopt_args) (fuel : nat) : M outcome :=
  fun w =>
    match get_arguments os_environ None args with
    | Raise e => (Ok (Uncaught e), w)
    | Ok cfg =>
        match main answer rtt isdir fuel cfg w with
        | (Ok (Some _), w') => (Ok (Exit 0), w')
        | (Ok None, w') => (Ok StillPolling, w')
        | (Raise (HandledError l), w') =>
            match py_getitem (config_dict cfg) "--raise" with
            | Ok r => if truthy r then (Ok (Uncaught (HandledError l)), w') else (Ok (Exit 1), w')
            | Raise e => (Ok (Uncaught e), w')
            end
        | (Raise e, w') => (Ok (Uncaught e), w')
        end
    end.

(** [c in s] *)
Fixpoint has_char (c : ascii) (s : string) : bool :=
  match s with EmptyString => false | String a s' => Ascii.eqb a c || has_char c s' end.

(** The remote answers request [n] to [e] with a build whose [jobs] array is [jobs]. *)
Definition serves_jobs (answer : nat -> endpoint -> transport) (n : nat) (e : endpoint)
  (jobs : list json) : Prop :=
  exists st txt fields bfields,
    response_ok st = true /\ answer n e = TResp st txt (Some (JObj fields))
    /\ dict_lookup "build" fields = Some (JObj bfields) /\ dict_lookup "jobs" bfields = Some (JArr jobs).

(** A job record whose name differs from [name], with an id and a status. *)
Definition other_job (name : string) (j : json) : Prop :=
  exists n id st, py_getitem j "name" = Ok n /\ py_eq_str_json name n = false
    /\ py_getitem j "jobId" = Ok id /\ py_getitem j "status" = Ok st.

(** ** Reading a build record, in the words of the spec *)

(** A build of the history as §6 describes it: an object with [commitId] and [version]. *)
Definition wf_build (b : json) : bool :=
  match b with
  | JObj l => match dict_lookup "commitId" l, dict_lookup "version" l with
              | Some _, Some _ => true
              | _, _ => false
              end
  | _ => false
  end.

Definition build_version_of (b : json) : option json :=
  match b with JObj l => dict_lookup "version" l | _ => None end.

(** A build matches the identity by tag, by pull-request number or by commit. *)
Definition identity_matches (cfg : config) (b : json) : bool :=
  match b with
  | JObj l =>
      (nonempty (tag cfg) && py_eq_str (tag cfg) (dict_lookup "tag" l))
      || (nonempty (pull_request cfg) && py_eq_str (pull_request cfg) (dict_lookup "pullRequestId" l))
      || py_eq_str (commit cfg) (dict_lookup "commitId" l)
  | _ => false
  end.

(** ** Concrete scenarios *)

Definition no_rtt : nat -> Z := fun _ => 0.
Definition any_dir : string -> bool := fun _ => true.
Definition w0 : world := mkWorld [] 0.

(** A remote that serves the same history, build and artifact listings to every request. *)
Definition fixed_remote (history build : json) (artifacts : json -> json) : nat -> endpoint -> transport :=
  fun _ e => match e with
             | EHistory _ _ => TResp 200 "" (Some history)
             | EBuild _ _ _ => TResp 200 "" (Some build)
             | EArtifacts j => TResp 200 "" (Some (artifacts j))
             end.

Definition history_of (builds : list json) : json := JObj [("builds", JArr builds)].

Definition job_json (id status : string) : json :=
  JObj [("jobId", JStr id); ("name", JStr id); ("status", JStr status)].

Definition build_of (jobs : list (string * string)) : json :=
  JObj [("build", JObj [("jobs", JArr (map (fun p => job_json (fst p) (snd p)) jobs))])].

Definition no_artifacts : json -> json := fun _ => JArr [].

(** Identity: commit [abcdef1] and tag [v1], for owner/repo [o]/[r]. *)
Definition cfg_tagged : config := mkConfig false "abcdef1" "" "" "" "o" "" "r" "v1" "" false.

(** Build #1 is a push of commit [abcdef1]; build #2 is tagged [v1]. *)
Definition push_then_tag : list json :=
  [JObj [("commitId", JStr "abcdef1"); ("version", JStr "1")];
   JObj [("commitId", JStr "1234567"); ("tag", JStr "v1"); ("version", JStr "2")]].

(** A history holding one push build of [abcdef1], version [1]. *)
Definition one_push : list json := [JObj [("commitId", JStr "abcdef1"); ("version", JStr "1")]].

Definition remote_jobs (jobs : list (string * string)) : nat -> endpoint -> transport :=
  fixed_remote (history_of one_push) (build_of jobs) no_artifacts.

(** Identity: commit [abcdef1] only. *)
Definition cfg_plain : config := mkConfig false "abcdef1" "" "" "" "o" "" "r" "" "" false.

(** The same, run with [--timeout=1]. *)
Definition cfg_timeout : config := mkConfig false "abcdef1" "" "" "" "o" "" "r" "" "1" false.

(** Each request takes 2 time units. *)
Definition slow_rtt : nat -> Z := fun _ => 2.

(** A remote whose every request gets a 502 page that is not JSON. *)
Definition bad_gateway : nat -> endpoint -> transport :=
  fun _ _ => TResp 502 "<html>Bad Gateway</html>" None.

(** A remote answering 200 with a body that is not JSON. *)
Definition garbage_ok : nat -> endpoint -> transport :=
  fun _ _ => TResp 200 "<html>maintenance</html>" None.

(** Job [a] lists one artifact, job [b] none. *)
Definition listing_ab (j : json) : list json :=
  if py_eq_str_json "a" j then [JObj [("fileName", JStr "coverage.xml"); ("size", JNum 10)]] else [].

Definition names_ab (j : json) : list json :=
  if py_eq_str_json "a" j then [JStr "coverage.xml"] else [].

Definition remote_ab : nat -> endpoint -> transport :=
  fixed_remote (history_of one_push) (build_of [("a", "success"); ("b", "success")])
    (fun j => JArr (listing_ab j)).

(** A history in which no build matches. *)
Definition remote_empty_history : nat -> endpoint -> transport :=
  fixed_remote (history_of []) (build_of []) no_artifacts.

Definition newline : string := String "010"%char EmptyString.

(** Commit [abcdef1] followed by a newline. *)
Definition cfg_commit_nl : config :=
  mkConfig false ("abcdef1" ++ newline)%string "" "" "" "o" "" "r" "" "" false.

(** No commit, no tag, no pull request. *)
Definition cfg_no_identity : config := mkConfig false "" "" "" "" "o" "" "r" "" "" false.

(** No command-line options at all. *)
Definition no_args : docopt_args :=
  mkArgs false None None None None None None None None None false.

(** A Travis environment for commit [abcdef1] of [o/r], not a pull request. *)
Definition travis_env : environ :=
  [("TRAVIS", "true"); ("TRAVIS_COMMIT", "abcdef1"); ("TRAVIS_REPO_SLUG", "o/r");
   ("TRAVIS_PULL_REQUEST", "false"); ("TRAVIS_TAG", "")].

(** The same, with a repository slug lacking its [/]. *)
Definition travis_env_bad_slug : environ :=
  [("TRAVIS", "true"); ("TRAVIS_COMMIT", "abcdef1"); ("TRAVIS_REPO_SLUG", "o")].

(** Jobs [a] and [b], named after their ids. *)
Definition jobs_ab : list json := [job_json "a" "running"; job_json "b" "success"].

(** Identity: commit [abcdef1], only job [b]. *)
Definition cfg_job_b : config := mkConfig false "abcdef1" "" "b" "" "o" "" "r" "" "" false.

(** Identity: commit [abcdef1], only job [c]. *)
Definition cfg_job_c : config := mkConfig false "abcdef1" "" "c" "" "o" "" "r" "" "" false.

(** Every request times out. *)
Definition timeout_remote : nat -> endpoint -> transport := fun _ _ => TTimeout.

(** Every request fails to connect. *)
Definition refused_remote : nat -> endpoint -> transport := fun _ _ => TConnError.


(** ** Generic facts about the monad *)

Lemma mbind_assoc {A B C} (c : M A) (f : A -> M B) (g : B -> M C) (w : world) :
  mbind (mbind c f) g w = mbind c (fun a => mbind (f a) g) w.
Proof. unfold mbind. destruct (c w) as [[a|e] w']; reflexivity. Qed.

Lemma mbind_ok {A B} (c : M A) (k : A -> M B) (w w' : world) (a : A) :
  c w = (Ok a, w') -> mbind c k w = k a w'.
Proof. intros H. unfold mbind. rewrite H. reflexivity. Qed.

Lemma mbind_raise {A B} (c : M A) (k : A -> M B) (w w' : world) (e : exn) :
  c w = (Raise e, w') -> mbind c k w = (Raise e, w').
Proof. intros H. unfold mbind. rewrite H. reflexivity. Qed.

(** A computation only appends to the trace. *)
Definition appends {A} (c : M A) : Prop :=
  forall w, exists ev, trace (snd (c w)) = (trace w ++ ev)%list.

Lemma appends_ret {A} (a : A) : appends (mret a).
Proof. intros w. exists []. now rewrite app_nil_r. Qed.

Lemma appends_raise {A} (e : exn) : appends (A := A) (mraise e).
Proof. intros w. exists []. now rewrite app_nil_r. Qed.

Lemma appends_lift {A} (r : pyresult A) : appends (mlift r).
Proof. intros w. exists []. now rewrite app_nil_r. Qed.

Lemma appends_sleep s : appends (time_sleep s).
Proof. intros w. exists [EvSleep s]. reflexivity. Qed.

Lemma appends_time : appends time_time.
Proof. intros w. exists []. now rewrite app_nil_r. Qed.

Lemma appends_query answer rtt e : appends (query_api answer rtt e).
Proof. intros w. exists [EvQuery e]. reflexivity. Qed.

Lemma appends_bind {A B} (c : M A) (k : A -> M B) :
  appends c -> (forall a, appends (k a)) -> appends (mbind c k).
Proof.
  intros Hc Hk w. unfold mbind. destruct (Hc w) as [ev1 H1].
  destruct (c w) as [[a|e] w'] eqn:E; simpl in *.
  - destruct (Hk a w') as [ev2 H2]. exists (ev1 ++ ev2). rewrite H2, H1, app_assoc. reflexivity.
  - exists ev1. exact H1.
Qed.

Create HintDb appends_db.
#[local] Hint Resolve appends_ret appends_raise appends_lift appends_sleep appends_time
  appends_query : appends_db.

Ltac appends_tac :=
  repeat first
    [ apply appends_bind; [ | intros ]
    | progress (eauto with appends_db)
    | match goal with
      | |- appends (if ?b then _ else _) => destruct b
      | |- appends (match ?x with _ => _ end) => destruct x
      end ].

Lemma appends_get_build_version answer rtt cfg : appends (get_build_version answer rtt cfg).
Proof. unfold get_build_version. appends_tac. Qed.

Lemma appends_get_job_ids answer rtt bv cfg : appends (get_job_ids answer rtt bv cfg).
Proof. unfold get_job_ids. appends_tac. Qed.

Lemma appends_get_artifacts_urls_from answer rtt jobs acc :
  appends (get_artifacts_urls_from answer rtt jobs acc).
Proof.
  revert acc. induction jobs as [|j jobs IH]; intros acc; simpl; appends_tac.
Qed.

Lemma appends_wait_queued answer rtt k cfg b : appends (wait_queued answer rtt k cfg b).
Proof.
  revert b. induction k as [|k IH]; intros b; simpl; appends_tac;
    auto using appends_get_build_version.
Qed.

Lemma appends_poll_iteration answer rtt cfg bv st : appends (poll_iteration answer rtt cfg bv st).
Proof. unfold poll_iteration. appends_tac; auto using appends_get_job_ids. Qed.

Lemma appends_poll_loop answer rtt fuel cfg bv st : appends (poll_loop answer rtt fuel cfg bv st).
Proof.
  induction fuel as [|f IH]; simpl; appends_tac; auto using appends_poll_iteration.
Qed.

(** ** Build Locator *)

Lemma find_build_cons cfg fields l c v :
  dict_lookup "commitId" fields = Some c -> dict_lookup "version" fields = Some v ->
  find_build cfg (JObj fields :: l)
  = if identity_matches cfg (JObj fields) then Ok (Some v) else find_build cfg l.
Proof.
  intros Ec Ev. unfold identity_matches. rewrite Ec.
  cbn [find_build py_get py_getitem pbind]. rewrite Ec, Ev. unfold py_eq_str_json; cbv beta.
  destruct (nonempty (tag cfg)), (py_eq_str (tag cfg) (dict_lookup "tag" fields));
    cbn [pbind andb orb]; try reflexivity;
  destruct (nonempty (pull_request cfg)), (py_eq_str (pull_request cfg) (dict_lookup "pullRequestId" fields));
    cbn [pbind andb orb]; try reflexivity;
  destruct (py_eq_str (commit cfg) (Some c)); reflexivity.
Qed.

Lemma find_build_first_match cfg l :
  forallb wf_build l = true ->
  find_build cfg l
  = Ok (match find (identity_matches cfg) l with Some b => build_version_of b | None => None end).
Proof.
  induction l as [|b l IH]; intros Hwf; [reflexivity|].
  simpl in Hwf. apply andb_prop in Hwf as [Hb Hl].
  destruct b as [| | | | |fields]; try discriminate. simpl in Hb.
  destruct (dict_lookup "commitId" fields) as [c|] eqn:Ec; [|discriminate].
  destruct (dict_lookup "version" fields) as [v|] eqn:Ev; [|discriminate].
  rewrite (find_build_cons cfg fields l c v Ec Ev). cbn [find].
  destruct (identity_matches cfg (JObj fields)); cbn [build_version_of]; rewrite ?Ev; auto.
Qed.

Lemma query_api_ok answer rtt e w st txt j :
  answer (nqueries w) e = TResp st txt (Some j) -> response_ok st = true ->
  query_api answer rtt e w = (Ok j, mkWorld (trace w ++ [EvQuery e]) (clock w + rtt (nqueries w))).
Proof. intros Ha Hok. unfold query_api. rewrite Ha. simpl. rewrite Hok. reflexivity. Qed.

(** C1 (amended).  Scanning the history in the order it is returned, the
    locator selects the first build that matches the identity by tag, by
    pull-request number or by commit; the tag/PR/commit order only applies
    inside one build, so a tag match on a later build does not win over a
    commit match on an earlier one. *)
Theorem get_build_version_first_match answer rtt cfg w st txt fields builds :
  answer (nqueries w) (EHistory (owner cfg) (repo cfg)) = TResp st txt (Some (JObj fields)) ->
  response_ok st = true ->
  dict_lookup "builds" fields = Some (JArr builds) ->
  forallb wf_build builds = true ->
  fst (get_build_version answer rtt cfg w)
  = Ok (match find (identity_matches cfg) builds with Some b => build_version_of b | None => None end).
Proof.
  intros Ha Hok Hb Hwf. unfold get_build_version.
  rewrite (mbind_ok _ _ _ _ _ (query_api_ok _ _ _ _ _ _ _ Ha Hok)).
  cbn [mbind mlift py_in py_getitem py_iter negb]. rewrite Hb. simpl.
  apply find_build_first_match; exact Hwf.
Qed.

Lemma get_build_version_first_match_witness :
  fst (get_build_version (fixed_remote (history_of push_then_tag) (build_of []) no_artifacts)
         no_rtt cfg_tagged w0) = Ok (Some (JStr "1")).
Proof.
  rewrite (get_build_version_first_match _ _ _ _ 200 "" [("builds", JArr push_then_tag)] push_then_tag);
    reflexivity.
Defined.

(** C1 (counterexample).  With identity tag [v1] and commit [abcdef1], build #1
    a push of [abcdef1] and build #2 tagged [v1], the locator returns build #1,
    not the tagged build #2. *)
Lemma get_build_version_push_before_tag :
  fst (get_build_version (fixed_remote (history_of push_then_tag) (build_of []) no_artifacts)
         no_rtt cfg_tagged w0) = Ok (Some (JStr "1"))
  /\ fst (get_build_version (fixed_remote (history_of push_then_tag) (build_of []) no_artifacts)
         no_rtt cfg_tagged w0) <> Ok (Some (JStr "2")).
Proof. split; vm_compute; [reflexivity | discriminate]. Qed.

(** ** Job Poller *)

Lemma py_eq_str_json_true s v : py_eq_str_json s v = true -> v = JStr s.
Proof.
  unfold py_eq_str_json, py_eq_str. destruct v; try discriminate.
  intros H. apply String.eqb_eq in H. now subst.
Qed.

Lemma py_set_hashable l : forallb hashable l = true -> py_set l = Ok l.
Proof. intros H. unfold py_set. now rewrite H. Qed.

Lemma set_mem_map_snd s (job_ids : list (json * json)) :
  set_mem s (map snd job_ids) = existsb (fun i => py_eq_str_json s (snd i)) job_ids.
Proof.
  unfold set_mem. induction job_ids as [|i r IH]; simpl; [reflexivity|]. now rewrite IH.
Qed.

(** After the listing is fetched, the pass is decided by [poll_status] alone. *)
Lemma poll_iteration_listing answer rtt cfg bv start w w' job_ids :
  get_job_ids answer rtt bv cfg w = (Ok job_ids, w') ->
  poll_iteration answer rtt cfg bv start w
  = mbind (mlift (poll_status (owner cfg) (repo cfg) job_ids))
      (fun done =>
         if done then mret (Some job_ids) else
         (if nonempty (timeout cfg) then
            now <- time_time ;;
            over <- mlift (py_ge (PyNum (now - start)) (PyStr (timeout cfg))) ;;
            if over then mraise (HandledError LogPollTimeout)
            else (_ <- time_sleep SLEEP_FOR ;; mret None)
          else (_ <- time_sleep SLEEP_FOR ;; mret None))) w'.
Proof. intros H. unfold poll_iteration. erewrite mbind_ok by exact H. reflexivity. Qed.

(** With a budget given, the timeout check of a waiting pass compares the
    elapsed time (a number) with the [--timeout] string: in Python 3 that
    raises [TypeError], before any sleep and whatever the elapsed time. *)
Lemma poll_iteration_timeout_check answer rtt cfg bv start w w' job_ids :
  get_job_ids answer rtt bv cfg w = (Ok job_ids, w') ->
  poll_status (owner cfg) (repo cfg) job_ids = Ok false ->
  nonempty (timeout cfg) = true ->
  poll_iteration answer rtt cfg bv start w = (Raise TypeError, w').
Proof.
  intros Hj Hs Ht. rewrite (poll_iteration_listing _ _ _ _ _ _ _ _ Hj).
  unfold mbind, mlift. rewrite Hs, Ht. reflexivity.
Qed.

(** C2 (code_bug, evaluated at the failing input).  Run with [--timeout=1]
    while every job is [running], and with requests that take 2 time units,
    [main] does not fail with the polling timeout: the check raises
    [TypeError] right after the first listing. *)
Theorem main_timeout_raises_type_error :
  main (remote_jobs [("a", "running"); ("b", "running")]) slow_rtt any_dir 5 cfg_timeout w0
  = (Raise TypeError,
     mkWorld [EvQuery (EHistory "o" "r"); EvQuery (EBuild "o" "r" (JStr "1"))] 4).
Proof. vm_compute. reflexivity. Qed.

Lemma poll_status_unknown owner repo job_ids :
  forallb hashable (map snd job_ids) = true ->
  set_mem "failed" (map snd job_ids) = false ->
  set_eq_singleton "success" (map snd job_ids) = false ->
  set_mem "running" (map snd job_ids) = false ->
  set_mem "queued" (map snd job_ids) = false ->
  poll_status owner repo job_ids = Raise TypeError.
Proof.
  intros Hh Hf Hs Hr Hq. unfold poll_status. rewrite (py_set_hashable _ Hh). cbn [pbind].
  now rewrite Hf, Hs, Hr, Hq.
Qed.

(** C3 (code_bug, evaluated at the failing input).  With the listing
    [("a","weird")], [main] raises [TypeError] (from [statuses - valid_statuses]),
    not the handled unknown-status error. *)
Theorem main_unknown_status_type_error :
  main (remote_jobs [("a", "weird")]) no_rtt any_dir 5 cfg_plain w0
  = (Raise TypeError,
     mkWorld [EvQuery (EHistory "o" "r"); EvQuery (EBuild "o" "r" (JStr "1"))] 0).
Proof. vm_compute. reflexivity. Qed.

(** C5.  When the listing has a job whose status is [failed], the pass fails
    at once with the job-failed error, naming the first failing job of the
    listing; nothing is requested or slept after the listing. *)
Theorem poll_iteration_job_failed answer rtt cfg bv start w w' job_ids :
  get_job_ids answer rtt bv cfg w = (Ok job_ids, w') ->
  forallb hashable (map snd job_ids) = true ->
  (exists j, In (j, JStr "failed") job_ids) ->
  exists job rest,
    map fst (filter (fun i => py_eq_str_json "failed" (snd i)) job_ids) = job :: rest
    /\ In (job, JStr "failed") job_ids
    /\ poll_iteration answer rtt cfg bv start w
       = (Raise (HandledError (LogJobFailed (owner cfg) (repo cfg) job)), w').
Proof.
  intros Hj Hh [j Hin]. rewrite (poll_iteration_listing _ _ _ _ _ _ _ _ Hj).
  assert (Hf : set_mem "failed" (map snd job_ids) = true).
  { rewrite set_mem_map_snd. apply existsb_exists. exists (j, JStr "failed"). split; [exact Hin|].
    unfold py_eq_str_json, py_eq_str. apply String.eqb_refl. }
  destruct (map fst (filter (fun i => py_eq_str_json "failed" (snd i)) job_ids)) as [|job rest] eqn:E.
  - exfalso.
    assert (Hm : In j (map fst (filter (fun i => py_eq_str_json "failed" (snd i)) job_ids))).
    { apply in_map_iff. exists (j, JStr "failed"). split; [reflexivity|].
      apply filter_In. split; [exact Hin|]. unfold py_eq_str_json, py_eq_str. apply String.eqb_refl. }
    rewrite E in Hm. exact Hm.
  - exists job, rest. split; [reflexivity|]. split.
    + assert (Hm : In job (map fst (filter (fun i => py_eq_str_json "failed" (snd i)) job_ids)))
        by (rewrite E; left; reflexivity).
      apply in_map_iff in Hm as [[id st] [Hid Hp]]. apply filter_In in Hp as [Hp Hst].
      simpl in Hid, Hst. apply py_eq_str_json_true in Hst. subst. exact Hp.
    + unfold mbind, mlift, poll_status. rewrite (py_set_hashable _ Hh). cbn [pbind].
      rewrite Hf, E. reflexivity.
Qed.

Lemma poll_iteration_job_failed_witness :
  exists job rest,
    map fst (filter (fun i => py_eq_str_json "failed" (snd i))
               [(JStr "a", JStr "failed"); (JStr "b", JStr "running")]) = job :: rest
    /\ In (job, JStr "failed") [(JStr "a", JStr "failed"); (JStr "b", JStr "running")]
    /\ poll_iteration (remote_jobs [("a", "failed"); ("b", "running")]) no_rtt cfg_plain
         (JStr "1") 0 w0
       = (Raise (HandledError (LogJobFailed "o" "r" job)),
          mkWorld [EvQuery (EBuild "o" "r" (JStr "1"))] 0).
Proof.
  apply (poll_iteration_job_failed (remote_jobs [("a", "failed"); ("b", "running")]) no_rtt
           cfg_plain (JStr "1") 0 w0 (mkWorld [EvQuery (EBuild "o" "r" (JStr "1"))] 0)).
  - vm_compute. reflexivity.
  - vm_compute. reflexivity.
  - exists (JStr "a"). left. reflexivity.
Defined.

(** The spec's example: [("a","failed"),("b","running")] fails naming job [a]. *)
Example main_job_failed_names_a :
  fst (main (remote_jobs [("a", "failed"); ("b", "running")]) no_rtt any_dir 5 cfg_plain w0)
  = Raise (HandledError (LogJobFailed "o" "r" (JStr "a"))).
Proof. vm_compute. reflexivity. Qed.

(** C6 (amended).  A non-empty listing in which every job is [success] ends
    the polling loop on that pass, returning the whole listing with no further
    request or sleep; an empty listing is not taken as success. *)
Theorem poll_iteration_all_success answer rtt cfg bv start w w' job_ids :
  get_job_ids answer rtt bv cfg w = (Ok job_ids, w') ->
  job_ids <> [] ->
  Forall (fun i => snd i = JStr "success") job_ids ->
  poll_iteration answer rtt cfg bv start w = (Ok (Some job_ids), w')
  /\ poll_status (owner cfg) (repo cfg) [] <> Ok true.
Proof.
  intros Hj Hne Hall. split; [|unfold poll_status; simpl; discriminate].
  rewrite (poll_iteration_listing _ _ _ _ _ _ _ _ Hj).
  assert (Hh : forallb hashable (map snd job_ids) = true).
  { apply forallb_forall. intros x Hx. apply in_map_iff in Hx as [i [<- Hi]].
    rewrite Forall_forall in Hall. now rewrite (Hall i Hi). }
  assert (Hf : set_mem "failed" (map snd job_ids) = false).
  { rewrite set_mem_map_snd. apply not_true_iff_false. intros Hx.
    apply existsb_exists in Hx as [i [Hi Hs]]. rewrite Forall_forall in Hall.
    rewrite (Hall i Hi) in Hs. discriminate. }
  assert (Hs : set_eq_singleton "success" (map snd job_ids) = true).
  { unfold set_eq_singleton. apply andb_true_intro. split.
    - destruct job_ids as [|i r]; [contradiction|]. simpl. inversion Hall as [|? ? Hi]; subst.
      rewrite Hi. reflexivity.
    - apply forallb_forall. intros x Hx. apply in_map_iff in Hx as [i [<- Hi]].
      rewrite Forall_forall in Hall. rewrite (Hall i Hi). reflexivity. }
  unfold mbind, mlift, poll_status. rewrite (py_set_hashable _ Hh). cbn [pbind].
  rewrite Hf, Hs. reflexivity.
Qed.

Lemma poll_iteration_all_success_witness :
  poll_iteration (remote_jobs [("a", "success"); ("b", "success")]) no_rtt cfg_plain (JStr "1") 0 w0
  = (Ok (Some [(JStr "a", JStr "success"); (JStr "b", JStr "success")]),
     mkWorld [EvQuery (EBuild "o" "r" (JStr "1"))] 0)
  /\ poll_status "o" "r" [] <> Ok true.
Proof.
  apply (poll_iteration_all_success (remote_jobs [("a", "success"); ("b", "success")]) no_rtt
           cfg_plain (JStr "1") 0 w0 (mkWorld [EvQuery (EBuild "o" "r" (JStr "1"))] 0)).
  - vm_compute. reflexivity.
  - discriminate.
  - repeat constructor.
Defined.

(** C6 (counterexample).  A build whose job listing is empty (every job of it
    is, vacuously, [success]) does not end in success: [main] raises. *)
Lemma main_empty_listing_not_success :
  fst (poll_iteration (remote_jobs []) no_rtt cfg_plain (JStr "1") 0 w0) <> Ok (Some [])
  /\ main (remote_jobs []) no_rtt any_dir 5 cfg_plain w0
     = (Raise TypeError,
        mkWorld [EvQuery (EHistory "o" "r"); EvQuery (EBuild "o" "r" (JStr "1"))] 0).
Proof. split; vm_compute; [discriminate | reflexivity]. Qed.

(** ** API Client *)

(** A rejected request whose JSON body has a non-empty [message] is reported
    with that message. *)
Lemma query_api_http_message st txt fields m :
  response_ok st = false -> dict_lookup "message" fields = Some m -> truthy m = true ->
  query_api_response (TResp st txt (Some (JObj fields))) = Raise (HandledError (LogHTTP st m)).
Proof. intros Hok Hm Ht. simpl. rewrite Hok. simpl. rewrite Hm. simpl. now rewrite Ht. Qed.

(** An accepted request whose body is not JSON is reported as a parse failure. *)
Lemma query_api_parse_error st txt :
  response_ok st = true -> query_api_response (TResp st txt None) = Raise (HandledError (LogParseJSON txt)).
Proof. intros Hok. simpl. now rewrite Hok. Qed.

(** C4 (code_bug, evaluated at the failing input).  A 502 answer whose body
    is not JSON makes [response.json()] raise [ValueError] in the error branch
    of [query_api]; it escapes [main] unhandled, while the same body with a
    200 status is reported as a parse failure. *)
Theorem main_non_json_error_body_escapes :
  fst (main bad_gateway no_rtt any_dir 5 cfg_plain w0) = Raise ValueError
  /\ fst (main garbage_ok no_rtt any_dir 5 cfg_plain w0)
     = Raise (HandledError (LogParseJSON "<html>maintenance</html>")).
Proof. split; vm_compute; reflexivity. Qed.

(** ** Artifact Resolver *)

Lemma mapM_Forall2 {A B} (f : A -> pyresult B) l l' :
  Forall2 (fun a b => f a = Ok b) l l' -> mapM f l = Ok l'.
Proof. induction 1 as [|a b l l' Hab _ IH]; simpl; [reflexivity|]. now rewrite Hab, IH. Qed.

Lemma get_artifacts_urls_from_flatten answer rtt job_ids entries names acc w :
  (forall n j, In j job_ids -> exists st txt,
      response_ok st = true /\ answer n (EArtifacts j) = TResp st txt (Some (JArr (entries j)))) ->
  (forall j, In j job_ids ->
      Forall2 (fun a f => py_getitem a "fileName" = Ok f) (entries j) (names j)) ->
  fst (get_artifacts_urls_from answer rtt job_ids acc w)
  = Ok (acc ++ flat_map (fun j => map (pair j) (names j)) job_ids).
Proof.
  revert acc w. induction job_ids as [|j r IH]; intros acc w Hans Hnames.
  - simpl. now rewrite app_nil_r.
  - cbn [get_artifacts_urls_from].
    destruct (Hans (nqueries w) j (or_introl eq_refl)) as [st [txt [Hok Ha]]].
    erewrite mbind_ok by exact (query_api_ok _ _ _ _ _ _ _ Ha Hok).
    unfold mbind at 1, mlift at 1. cbn [py_iter].
    unfold mbind at 1, mlift at 1. rewrite (mapM_Forall2 _ _ _ (Hnames j (or_introl eq_refl))).
    rewrite IH.
    + cbn [flat_map]. now rewrite app_assoc.
    + intros n j' Hj'. apply Hans. now right.
    + intros j' Hj'. apply Hnames. now right.
Qed.

(** C8.  Given, for each job, an artifact listing whose entries carry a
    [fileName], the resolver returns one (job, file name) pair per entry, jobs
    in the given order and entries in listing order; no job gives no pair, and
    a job with an empty listing contributes nothing. *)
Theorem get_artifacts_urls_flatten answer rtt job_ids entries names w :
  (forall n j, In j job_ids -> exists st txt,
      response_ok st = true /\ answer n (EArtifacts j) = TResp st txt (Some (JArr (entries j)))) ->
  (forall j, In j job_ids ->
      Forall2 (fun a f => py_getitem a "fileName" = Ok f) (entries j) (names j)) ->
  fst (get_artifacts_urls answer rtt job_ids w)
  = Ok (flat_map (fun j => map (pair j) (names j)) job_ids).
Proof. intros Hans Hnames. apply (get_artifacts_urls_from_flatten _ _ _ _ _ [] w Hans Hnames). Qed.

Lemma get_artifacts_urls_flatten_witness :
  fst (get_artifacts_urls remote_ab no_rtt [JStr "a"; JStr "b"] w0)
  = Ok [(JStr "a", JStr "coverage.xml")].
Proof.
  apply (get_artifacts_urls_flatten remote_ab no_rtt [JStr "a"; JStr "b"] listing_ab names_ab w0).
  - intros n j [<-|[<-|[]]]; exists 200, ""; split; reflexivity.
  - intros j [<-|[<-|[]]]; repeat constructor.
Defined.

(** ** Orchestrator: validation, then build location *)

(** A computation that leaves the world unchanged. *)
Definition keeps_world {A} (c : M A) : Prop := forall w, snd (c w) = w.

Lemma keeps_ret {A} (a : A) : keeps_world (mret a).
Proof. intros w. reflexivity. Qed.

Lemma keeps_raise {A} (e : exn) : keeps_world (A := A) (mraise e).
Proof. intros w. reflexivity. Qed.

Lemma keeps_lift {A} (r : pyresult A) : keeps_world (mlift r).
Proof. intros w. reflexivity. Qed.

Lemma keeps_bind {A B} (c : M A) (k : A -> M B) :
  keeps_world c -> (forall a, keeps_world (k a)) -> keeps_world (mbind c k).
Proof.
  intros Hc Hk w. unfold mbind. specialize (Hc w).
  destruct (c w) as [[a|e] w']; simpl in *; subst; [apply Hk | reflexivity].
Qed.

(** [get_build_version] makes exactly one request, to the history endpoint. *)
Lemma get_build_version_world answer rtt cfg w :
  snd (get_build_version answer rtt cfg w)
  = mkWorld (trace w ++ [EvQuery (EHistory (owner cfg) (repo cfg))]) (clock w + rtt (nqueries w)).
Proof.
  unfold get_build_version, mbind at 1.
  destruct (query_api answer rtt (EHistory (owner cfg) (repo cfg)) w) as [[j|e] w1] eqn:E;
    unfold query_api in E; injection E as _ <-; [|reflexivity].
  repeat (apply keeps_bind; intros) || apply keeps_lift || apply keeps_raise
    || match goal with |- keeps_world (if ?b then _ else _) => destruct b end.
Qed.

Lemma wait_queued_no_match answer rtt cfg k b w :
  truthy_opt b = false ->
  (forall w1, exists bv, fst (get_build_version answer rtt cfg w1) = Ok bv /\ truthy_opt bv = false) ->
  exists b' w', wait_queued answer rtt k cfg b w = (Ok b', w') /\ truthy_opt b' = false
    /\ trace w' = trace w ++ concat (repeat [EvQuery (EHistory (owner cfg) (repo cfg)); EvSleep SLEEP_FOR] k).
Proof.
  revert b w. induction k as [|k IH]; intros b w Hb Hnone.
  - exists b, w. simpl. rewrite app_nil_r. auto.
  - destruct (Hnone w) as [bv [Hbv Hf]].
    pose proof (get_build_version_world answer rtt cfg w) as Hw.
    destruct (get_build_version answer rtt cfg w) as [r w1] eqn:E. simpl in Hbv, Hw. subst r.
    cbn [wait_queued]. rewrite (mbind_ok _ _ _ _ _ E), Hf.
    unfold mbind at 1, time_sleep at 1.
    destruct (IH bv (mkWorld (trace w1 ++ [EvSleep SLEEP_FOR]) (clock w1 + SLEEP_FOR)) Hf Hnone)
      as [b' [w' [Hrun [Hb' Htr]]]].
    exists b', w'. rewrite Hrun. split; [reflexivity|]. split; [exact Hb'|].
    rewrite Htr. simpl. rewrite Hw. simpl. now rewrite <- !app_assoc.
Qed.

(** C7.  When no history query finds the build, [main] makes exactly three
    history requests, each followed by a 5-second sleep, and then fails with
    the queue timeout ("Timed out waiting for job to be queued or build not
    found"); no fourth history request is made. *)
Theorem main_queue_timeout answer rtt isdir fuel cfg w :
  validate isdir cfg = Ok tt ->
  (forall w1, exists bv, fst (get_build_version answer rtt cfg w1) = Ok bv /\ truthy_opt bv = false) ->
  exists w', main answer rtt isdir fuel cfg w = (Raise (HandledError LogQueueTimeout), w')
    /\ trace w' = trace w ++
         [EvQuery (EHistory (owner cfg) (repo cfg)); EvSleep SLEEP_FOR;
          EvQuery (EHistory (owner cfg) (repo cfg)); EvSleep SLEEP_FOR;
          EvQuery (EHistory (owner cfg) (repo cfg)); EvSleep SLEEP_FOR].
Proof.
  intros Hv Hnone. unfold main.
  erewrite mbind_ok by (unfold mlift; rewrite Hv; reflexivity).
  destruct (wait_queued_no_match answer rtt cfg 3 None w eq_refl Hnone) as [b' [w' [Hrun [Hb' Htr]]]].
  rewrite (mbind_ok _ _ _ _ _ Hrun). exists w'. split; [|exact Htr].
  destruct b' as [v|]; [|reflexivity]. simpl in Hb'. rewrite Hb'. reflexivity.
Qed.

Lemma main_queue_timeout_witness :
  exists w', main remote_empty_history no_rtt any_dir 5 cfg_plain w0
             = (Raise (HandledError LogQueueTimeout), w')
    /\ trace w' = trace w0 ++
         [EvQuery (EHistory "o" "r"); EvSleep SLEEP_FOR; EvQuery (EHistory "o" "r"); EvSleep SLEEP_FOR;
          EvQuery (EHistory "o" "r"); EvSleep SLEEP_FOR].
Proof.
  apply (main_queue_timeout remote_empty_history no_rtt any_dir 5 cfg_plain w0).
  - vm_compute. reflexivity.
  - intros w1. exists None. split; reflexivity.
Defined.

(** A failed validation ends [main] before any request. *)
Lemma main_validate_error answer rtt isdir fuel cfg w e :
  validate isdir cfg = Raise e -> main answer rtt isdir fuel cfg w = (Raise e, w).
Proof. intros Hv. unfold main, mbind at 1, mlift at 1. now rewrite Hv. Qed.

Lemma strip_final_newline_append s : strip_final_newline (s ++ newline)%string = Some s.
Proof.
  induction s as [|c s IH]; [reflexivity|].
  cbn [String.append]. remember (s ++ newline)%string as t eqn:Et. destruct t as [|x t'].
  - destruct s; discriminate.
  - change (option_map (String c) (strip_final_newline (String x t')) = Some (String c s)).
    now rewrite IH.
Qed.

(** Every well-formed commit followed by one newline also passes [REGEX_COMMIT]. *)
Lemma REGEX_COMMIT_match_trailing_newline s :
  all_chars is_hex_lower s && Nat.leb 7 (String.length s) && Nat.leb (String.length s) 40 = true ->
  REGEX_COMMIT_match (s ++ newline)%string = true.
Proof.
  intros H. unfold REGEX_COMMIT_match, re_match_dollar. rewrite strip_final_newline_append, H.
  apply orb_true_r.
Qed.

(** C9 (code_bug, evaluated at the failing input).  The commit
    ["abcdef1" followed by a newline] is not 7-40 lowercase hex characters, yet
    [validate] accepts it (Python's [$] also matches before a final newline)
    and [main] goes on to query the history. *)
Theorem validate_accepts_commit_with_newline :
  all_chars is_hex_lower (commit cfg_commit_nl) = false
  /\ validate any_dir cfg_commit_nl = Ok tt
  /\ exists rest,
       trace (snd (main (remote_jobs [("a", "success")]) no_rtt any_dir 5 cfg_commit_nl w0))
       = EvQuery (EHistory "o" "r") :: rest.
Proof.
  split; [vm_compute; reflexivity|]. split; [vm_compute; reflexivity|].
  eexists. vm_compute. reflexivity.
Qed.

Lemma REGEX_GENERAL_match_nonempty s : REGEX_GENERAL_match s = true -> nonempty s = true.
Proof. destruct s; [discriminate | reflexivity]. Qed.

(** Every computation [main] runs after validation only appends to the trace,
    so the request [get_build_version] makes first is the first event. *)
Lemma query_first {A} answer rtt e (k : json -> M A) w :
  (forall a, appends (k a)) ->
  exists rest, trace (snd (mbind (query_api answer rtt e) k w)) = trace w ++ EvQuery e :: rest.
Proof.
  intros Hk. unfold mbind at 1.
  destruct (query_api answer rtt e w) as [[a|x] w1] eqn:E;
    unfold query_api in E; injection E as _ <-.
  - destruct (Hk a (mkWorld (trace w ++ [EvQuery e]) (clock w + rtt (nqueries w)))) as [ev Hev].
    exists ev. rewrite Hev. simpl. now rewrite <- app_assoc.
  - exists []. reflexivity.
Qed.

(** C10.  With no commit, no tag and no pull request, and owner and repo
    matching their pattern (the other options being valid), [validate] passes
    and [main] goes on to build location: its first request is the history
    query. *)
Theorem validate_accepts_no_identity answer rtt isdir fuel cfg w :
  commit cfg = "" -> tag cfg = "" -> pull_request cfg = "" ->
  REGEX_GENERAL_match (owner cfg) = true -> REGEX_GENERAL_match (repo cfg) = true ->
  always_job_dirs cfg = false \/ no_job_dirs cfg = "" ->
  dir cfg = "" \/ isdir (dir cfg) = true ->
  In (no_job_dirs cfg) [""; "rename"; "overwrite"; "skip"] ->
  timeout cfg = "" \/ isdigit (timeout cfg) = true ->
  validate isdir cfg = Ok tt
  /\ exists rest, trace (snd (main answer rtt isdir fuel cfg w))
                  = trace w ++ EvQuery (EHistory (owner cfg) (repo cfg)) :: rest.
Proof.
  intros Hc Ht Hp Ho Hr Ha Hd Hn Htm.
  assert (Hv : validate isdir cfg = Ok tt).
  { assert (A1 : always_job_dirs cfg && nonempty (no_job_dirs cfg) = false)
      by (destruct Ha as [H|H]; rewrite H; [reflexivity | apply andb_false_r]).
    assert (A3 : nonempty (dir cfg) && negb (isdir (dir cfg)) = false)
      by (destruct Hd as [H|H]; rewrite H; [reflexivity | apply andb_false_r]).
    assert (A4 : existsb (String.eqb (no_job_dirs cfg)) [""; "rename"; "overwrite"; "skip"] = true)
      by (destruct Hn as [<-|[<-|[<-|[<-|[]]]]]; reflexivity).
    assert (A9 : nonempty (timeout cfg) && negb (isdigit (timeout cfg)) = false)
      by (destruct Htm as [H|H]; rewrite H; [reflexivity | apply andb_false_r]).
    unfold validate. rewrite A1, Hc, A3, A4, Ho, (REGEX_GENERAL_match_nonempty _ Ho), Hp, Hr,
      (REGEX_GENERAL_match_nonempty _ Hr), Ht, A9. reflexivity. }
  split; [exact Hv|].
  unfold main. erewrite mbind_ok by (unfold mlift; rewrite Hv; reflexivity).
  cbn [wait_queued]. unfold get_build_version at 1. rewrite !mbind_assoc.
  apply query_first. intros a.
  unfold get_artifacts_urls.
  appends_tac; auto using appends_get_build_version, appends_poll_loop, appends_get_artifacts_urls_from.
Qed.

Lemma validate_accepts_no_identity_witness :
  validate any_dir cfg_no_identity = Ok tt
  /\ exists rest, trace (snd (main (remote_jobs [("a", "success")]) no_rtt any_dir 5 cfg_no_identity w0))
                  = trace w0 ++ EvQuery (EHistory "o" "r") :: rest.
Proof.
  apply (validate_accepts_no_identity (remote_jobs [("a", "success")]) no_rtt any_dir 5 cfg_no_identity w0);
    try reflexivity.
  - left. reflexivity.
  - left. reflexivity.
  - left. reflexivity.
  - left. reflexivity.
Defined.

(** ** Command line and environment: [get_arguments] *)

Lemma split_on_no_sep sep s : has_char sep s = false -> split_on sep s = [s].
Proof.
  induction s as [|c s IH]; intros H; [reflexivity|].
  simpl in H. apply orb_false_iff in H as [Hc Hs]. simpl. rewrite Hc, (IH Hs). reflexivity.
Qed.

Lemma split_on_app sep a b :
  has_char sep a = false -> split_on sep (a ++ String sep b)%string = a :: split_on sep b.
Proof.
  induction a as [|c a IH]; intros H.
  - simpl. now rewrite Ascii.eqb_refl.
  - simpl in H. apply orb_false_iff in H as [Hc Ha]. simpl. rewrite Hc, (IH Ha). reflexivity.
Qed.

(** On Travis ([TRAVIS=true]) with a slug [owner/repo], the identity comes
    from [TRAVIS_COMMIT], the two halves of [TRAVIS_REPO_SLUG],
    [TRAVIS_PULL_REQUEST] (where ["false"] means none) and [TRAVIS_TAG]; each
    non-empty command-line option replaces the value read from the environment. *)
Theorem get_arguments_travis os_environ env args o r :
  env <> [] ->
  env_lookup env "TRAVIS" = Some "true" ->
  env_lookup env "TRAVIS_REPO_SLUG" = Some (o ++ String slash r)%string ->
  has_char slash o = false -> has_char slash r = false ->
  exists cfg, get_arguments os_environ (Some env) args = Ok cfg
    /\ commit cfg = py_or (arg_commit args) (env_get env "TRAVIS_COMMIT" "")
    /\ owner cfg = py_or (arg_owner_name args) o
    /\ repo cfg = py_or (arg_repo_name args) r
    /\ pull_request cfg
       = py_or (arg_pull_request args)
           (if String.eqb (env_get env "TRAVIS_PULL_REQUEST" "") "false" then ""
            else env_get env "TRAVIS_PULL_REQUEST" "")
    /\ tag cfg = py_or (arg_tag_name args) (env_get env "TRAVIS_TAG" "").
Proof.
  intros Hne Ht Hs Ho Hr. unfold get_arguments.
  destruct env as [|kv env']; [contradiction|]. cbv beta iota zeta.
  assert (Hs' : env_get (kv :: env') "TRAVIS_REPO_SLUG" "/" = (o ++ String slash r)%string)
    by (unfold env_get; now rewrite Hs).
  rewrite Ht, Hs'. cbn [String.eqb Ascii.eqb Bool.eqb andb].
  rewrite (split_on_app _ _ _ Ho), (split_on_no_sep _ _ Hr). cbn [pbind py_index nth_error].
  eexists. split; [reflexivity|]. repeat split.
Qed.

Lemma get_arguments_travis_witness :
  exists cfg, get_arguments [] (Some travis_env) no_args = Ok cfg
    /\ commit cfg = py_or (arg_commit no_args) (env_get travis_env "TRAVIS_COMMIT" "")
    /\ owner cfg = py_or (arg_owner_name no_args) "o"
    /\ repo cfg = py_or (arg_repo_name no_args) "r"
    /\ pull_request cfg
       = py_or (arg_pull_request no_args)
           (if String.eqb (env_get travis_env "TRAVIS_PULL_REQUEST" "") "false" then ""
            else env_get travis_env "TRAVIS_PULL_REQUEST" "")
    /\ tag cfg = py_or (arg_tag_name no_args) (env_get travis_env "TRAVIS_TAG" "").
Proof.
  apply (get_arguments_travis [] travis_env no_args "o" "r"); try reflexivity. discriminate.
Defined.

(** Unless [TRAVIS] is exactly ["true"], the environment is not read: any two
    such (non-empty) environments give the same configuration. *)
Theorem get_arguments_ignores_non_travis os_environ env1 env2 args :
  env1 <> [] -> env2 <> [] ->
  env_lookup env1 "TRAVIS" <> Some "true" -> env_lookup env2 "TRAVIS" <> Some "true" ->
  get_arguments os_environ (Some env1) args = get_arguments os_environ (Some env2) args.
Proof.
  intros H1 H2 T1 T2. unfold get_arguments.
  destruct env1 as [|kv1 e1]; [contradiction|]. destruct env2 as [|kv2 e2]; [contradiction|].
  assert (F : forall e, env_lookup e "TRAVIS" <> Some "true" ->
            match env_lookup e "TRAVIS" with Some v => String.eqb v "true" | None => false end = false).
  { intros e He. destruct (env_lookup e "TRAVIS") as [v|]; [|reflexivity].
    destruct (String.eqb_spec v "true"); [subst; contradiction | reflexivity]. }
  rewrite (F _ T1), (F _ T2). reflexivity.
Qed.

Lemma get_arguments_ignores_non_travis_witness :
  get_arguments [] (Some [("TRAVIS", "false"); ("TRAVIS_COMMIT", "abcdef1")]) no_args
  = get_arguments [] (Some [("HOME", "/root")]) no_args.
Proof.
  apply get_arguments_ignores_non_travis; try discriminate; vm_compute; discriminate.
Defined.

(** On Travis, a [TRAVIS_REPO_SLUG] without a [/] makes [get_arguments]
    raise [IndexError], whatever the command line gives for owner and repo
    (the slug is split before the options are applied). *)
Theorem get_arguments_bad_slug os_environ env args slug :
  env <> [] ->
  env_lookup env "TRAVIS" = Some "true" ->
  env_lookup env "TRAVIS_REPO_SLUG" = Some slug -> has_char slash slug = false ->
  get_arguments os_environ (Some env) args = Raise IndexError.
Proof.
  intros Hne Ht Hs Hn. unfold get_arguments.
  destruct env as [|kv env']; [contradiction|]. cbv beta iota zeta.
  assert (Hs' : env_get (kv :: env') "TRAVIS_REPO_SLUG" "/" = slug)
    by (unfold env_get; now rewrite Hs).
  rewrite Ht, Hs'. cbn [String.eqb Ascii.eqb Bool.eqb andb].
  rewrite (split_on_no_sep _ _ Hn). reflexivity.
Qed.

Lemma get_arguments_bad_slug_witness :
  get_arguments [] (Some travis_env_bad_slug)
    (mkArgs false None None None None (Some "o") None (Some "r") None None false)
  = Raise IndexError.
Proof. apply (get_arguments_bad_slug _ _ _ "o"); try reflexivity. discriminate. Defined.

(** ** [entry_point] *)

(** Whenever [main] fails with a handled error, [entry_point] does not exit
    with status 1: reading [config['--raise']] from the dict [get_arguments]
    built raises [KeyError], which escapes. *)
Theorem entry_point_handled_error_key_error answer rtt isdir os_environ args fuel cfg w l :
  get_arguments os_environ None args = Ok cfg ->
  fst (main answer rtt isdir fuel cfg w) = Raise (HandledError l) ->
  entry_point answer rtt isdir os_environ args fuel w
  = (Ok (Uncaught KeyError), snd (main answer rtt isdir fuel cfg w)).
Proof.
  intros Hg Hm. unfold entry_point. rewrite Hg.
  destruct (main answer rtt isdir fuel cfg w) as [r w'] eqn:E. simpl in Hm. subst r.
  reflexivity.
Qed.

Lemma entry_point_handled_error_key_error_witness :
  entry_point (remote_jobs []) no_rtt any_dir [] no_args 5 w0
  = (Ok (Uncaught KeyError), snd (main (remote_jobs []) no_rtt any_dir 5
                                   (mkConfig false "" "" "" "" "" "" "" "" "" false) w0)).
Proof.
  apply (entry_point_handled_error_key_error _ _ _ _ _ _ _ _ LogBadOwner); vm_compute; reflexivity.
Defined.

(** ** Job listing: [get_job_ids] *)

Lemma get_job_ids_listing answer rtt bv cfg w jobs :
  serves_jobs answer (nqueries w) (EBuild (owner cfg) (repo cfg) bv) jobs ->
  get_job_ids answer rtt bv cfg w
  = (collect_jobs cfg jobs [],
     mkWorld (trace w ++ [EvQuery (EBuild (owner cfg) (repo cfg) bv)]) (clock w + rtt (nqueries w))).
Proof.
  intros (st & txt & fields & bfields & Hok & Ha & Hb & Hj). unfold get_job_ids.
  rewrite (mbind_ok _ _ _ _ _ (query_api_ok _ _ _ _ _ _ _ Ha Hok)).
  cbn [mbind mlift py_in py_getitem negb]. rewrite Hb. cbn [mbind mlift py_in py_getitem negb pbind].
  rewrite Hj. reflexivity.
Qed.

Lemma collect_jobs_all cfg jobs pairs acc :
  job_name cfg = "" ->
  Forall2 (fun j p => py_getitem j "jobId" = Ok (fst p) /\ py_getitem j "status" = Ok (snd p)) jobs pairs ->
  collect_jobs cfg jobs acc = Ok (acc ++ pairs).
Proof.
  intros Hn H. revert acc. induction H as [|j p jobs pairs [Hi Hs] _ IH]; intros acc.
  - simpl. rewrite Hn. simpl. now rewrite app_nil_r.
  - simpl. rewrite Hn. simpl. rewrite Hi, Hs. simpl. rewrite IH. rewrite <- app_assoc.
    destruct p. reflexivity.
Qed.

(** Without [--job-name], [get_job_ids] returns the [(jobId, status)] pair of
    every job of the build, in the order of the listing. *)
Theorem get_job_ids_all answer rtt bv cfg w jobs pairs :
  job_name cfg = "" ->
  serves_jobs answer (nqueries w) (EBuild (owner cfg) (repo cfg) bv) jobs ->
  Forall2 (fun j p => py_getitem j "jobId" = Ok (fst p) /\ py_getitem j "status" = Ok (snd p)) jobs pairs ->
  fst (get_job_ids answer rtt bv cfg w) = Ok pairs.
Proof.
  intros Hn Hs Hp. rewrite (get_job_ids_listing _ _ _ _ _ _ Hs). apply (collect_jobs_all _ _ _ [] Hn Hp).
Qed.

Lemma get_job_ids_all_witness :
  fst (get_job_ids (remote_jobs [("a", "running"); ("b", "success")]) no_rtt (JStr "1") cfg_plain w0)
  = Ok [(JStr "a", JStr "running"); (JStr "b", JStr "success")].
Proof.
  apply (get_job_ids_all _ _ _ _ _ jobs_ab); [reflexivity | | repeat constructor].
  exists 200, "", [("build", JObj [("jobs", JArr jobs_ab)])], [("jobs", JArr jobs_ab)].
  repeat split.
Defined.

Lemma collect_jobs_filter cfg pre j post n id st acc :
  nonempty (job_name cfg) = true ->
  Forall (other_job (job_name cfg)) pre ->
  py_getitem j "name" = Ok n -> py_eq_str_json (job_name cfg) n = true ->
  py_getitem j "jobId" = Ok id -> py_getitem j "status" = Ok st ->
  collect_jobs cfg (pre ++ j :: post) acc = Ok [(id, st)].
Proof.
  intros Hne Hpre Hn Heq Hi Hs. revert acc. induction Hpre as [|x pre (n' & id' & st' & Hn' & Heq' & Hi' & Hs') _ IH];
    intros acc; simpl; rewrite Hne; simpl.
  - rewrite Hn. simpl. rewrite Heq, Hi, Hs. reflexivity.
  - rewrite Hn'. simpl. rewrite Heq', Hi', Hs'. simpl. apply IH.
Qed.

Lemma collect_jobs_not_found cfg jobs acc :
  nonempty (job_name cfg) = true ->
  Forall (other_job (job_name cfg)) jobs ->
  collect_jobs cfg jobs acc = Raise (HandledError (LogJobNameNotFound (job_name cfg))).
Proof.
  intros Hne H. revert acc. induction H as [|x jobs (n' & id' & st' & Hn' & Heq' & Hi' & Hs') _ IH];
    intros acc; simpl; rewrite Hne; simpl; [reflexivity|].
  rewrite Hn'. simpl. rewrite Heq', Hi', Hs'. simpl. apply IH.
Qed.

(** With [--job-name], [get_job_ids] returns only the first job of the
    listing whose name equals it, as a one-element list; when no job has that
    name it fails with the job-name-not-found error. *)
Theorem get_job_ids_filter answer rtt bv cfg w jobs :
  nonempty (job_name cfg) = true ->
  serves_jobs answer (nqueries w) (EBuild (owner cfg) (repo cfg) bv) jobs ->
  (forall pre j post n id st,
     jobs = pre ++ j :: post -> Forall (other_job (job_name cfg)) pre ->
     py_getitem j "name" = Ok n -> py_eq_str_json (job_name cfg) n = true ->
     py_getitem j "jobId" = Ok id -> py_getitem j "status" = Ok st ->
     fst (get_job_ids answer rtt bv cfg w) = Ok [(id, st)])
  /\ (Forall (other_job (job_name cfg)) jobs ->
      fst (get_job_ids answer rtt bv cfg w)
      = Raise (HandledError (LogJobNameNotFound (job_name cfg)))).
Proof.
  intros Hne Hs. rewrite (get_job_ids_listing _ _ _ _ _ _ Hs). simpl fst. split.
  - intros pre j post n id st -> Hpre Hn Heq Hi Hst. now apply collect_jobs_filter with n.
  - intros H. now apply collect_jobs_not_found.
Qed.

Lemma get_job_ids_filter_witness :
  (forall pre j post n id st,
     jobs_ab = pre ++ j :: post -> Forall (other_job "b") pre ->
     py_getitem j "name" = Ok n -> py_eq_str_json "b" n = true ->
     py_getitem j "jobId" = Ok id -> py_getitem j "status" = Ok st ->
     fst (get_job_ids (remote_jobs [("a", "running"); ("b", "success")]) no_rtt (JStr "1") cfg_job_b w0)
     = Ok [(id, st)])
  /\ (Forall (other_job "b") jobs_ab ->
      fst (get_job_ids (remote_jobs [("a", "running"); ("b", "success")]) no_rtt (JStr "1") cfg_job_b w0)
      = Raise (HandledError (LogJobNameNotFound "b"))).
Proof.
  apply (get_job_ids_filter _ _ _ cfg_job_b w0 jobs_ab); [reflexivity|].
  exists 200, "", [("build", JObj [("jobs", JArr jobs_ab)])], [("jobs", JArr jobs_ab)].
  repeat split.
Defined.

(** A reply without the expected container key is a handled error naming the
    key: [builds] for the history, [build] or [jobs] for a build. *)
Theorem missing_container_keys answer rtt cfg bv w st txt fields :
  response_ok st = true ->
  (answer (nqueries w) (EHistory (owner cfg) (repo cfg)) = TResp st txt (Some (JObj fields)) ->
   dict_lookup "builds" fields = None ->
   fst (get_build_version answer rtt cfg w) = Raise (HandledError (LogMissingKey "builds")))
  /\ (answer (nqueries w) (EBuild (owner cfg) (repo cfg) bv) = TResp st txt (Some (JObj fields)) ->
      dict_lookup "build" fields = None ->
      fst (get_job_ids answer rtt bv cfg w) = Raise (HandledError (LogMissingKey "build")))
  /\ (forall bfields,
      answer (nqueries w) (EBuild (owner cfg) (repo cfg) bv) = TResp st txt (Some (JObj fields)) ->
      dict_lookup "build" fields = Some (JObj bfields) -> dict_lookup "jobs" bfields = None ->
      fst (get_job_ids answer rtt bv cfg w) = Raise (HandledError (LogMissingKey "jobs"))).
Proof.
  intros Hok. split; [|split].
  - intros Ha Hb. unfold get_build_version.
    rewrite (mbind_ok _ _ _ _ _ (query_api_ok _ _ _ _ _ _ _ Ha Hok)).
    cbn [mbind mlift py_in]. rewrite Hb. reflexivity.
  - intros Ha Hb. unfold get_job_ids.
    rewrite (mbind_ok _ _ _ _ _ (query_api_ok _ _ _ _ _ _ _ Ha Hok)).
    cbn [mbind mlift py_in]. rewrite Hb. reflexivity.
  - intros bfields Ha Hb Hj. unfold get_job_ids.
    rewrite (mbind_ok _ _ _ _ _ (query_api_ok _ _ _ _ _ _ _ Ha Hok)).
    cbn [mbind mlift py_in py_getitem negb]. rewrite Hb. cbn [mbind mlift py_in py_getitem negb pbind]. rewrite Hj.
    reflexivity.
Qed.

Lemma missing_container_keys_witness :
  (fixed_remote (JObj [("message", JStr "ok")]) (build_of []) no_artifacts 0 (EHistory "o" "r")
   = TResp 200 "" (Some (JObj [("message", JStr "ok")])) ->
   dict_lookup "builds" [("message", JStr "ok")] = None ->
   fst (get_build_version (fixed_remote (JObj [("message", JStr "ok")]) (build_of []) no_artifacts)
          no_rtt cfg_plain w0) = Raise (HandledError (LogMissingKey "builds")))
  /\ (fixed_remote (JObj [("message", JStr "ok")]) (build_of []) no_artifacts 0 (EBuild "o" "r" (JStr "1"))
      = TResp 200 "" (Some (JObj [("message", JStr "ok")])) ->
      dict_lookup "build" [("message", JStr "ok")] = None ->
      fst (get_job_ids (fixed_remote (JObj [("message", JStr "ok")]) (build_of []) no_artifacts)
             no_rtt (JStr "1") cfg_plain w0) = Raise (HandledError (LogMissingKey "build")))
  /\ (forall bfields,
      fixed_remote (JObj [("message", JStr "ok")]) (build_of []) no_artifacts 0 (EBuild "o" "r" (JStr "1"))
      = TResp 200 "" (Some (JObj [("message", JStr "ok")])) ->
      dict_lookup "build" [("message", JStr "ok")] = Some (JObj bfields) ->
      dict_lookup "jobs" bfields = None ->
      fst (get_job_ids (fixed_remote (JObj [("message", JStr "ok")]) (build_of []) no_artifacts)
             no_rtt (JStr "1") cfg_plain w0) = Raise (HandledError (LogMissingKey "jobs"))).
Proof. apply (missing_container_keys _ _ cfg_plain (JStr "1") w0 200 ""). reflexivity. Defined.

(** With no commit, tag or pull request, the locator only matches a build
    whose [commitId] is the empty string: over builds with non-empty string
    commit ids it finds nothing. *)
Theorem find_build_no_identity cfg builds :
  commit cfg = "" -> tag cfg = "" -> pull_request cfg = "" ->
  Forall (fun b => wf_build b = true
                   /\ exists fields c, b = JObj fields /\ dict_lookup "commitId" fields = Some (JStr c)
                                       /\ c <> "") builds ->
  find_build cfg builds = Ok None.
Proof.
  intros Hc Ht Hp Hall.
  rewrite find_build_first_match.
  2: { apply forallb_forall. intros b Hb. rewrite Forall_forall in Hall. now apply Hall. }
  assert (Hf : find (identity_matches cfg) builds = None).
  { induction Hall as [|b builds [_ (fields & c & -> & Hcm & Hne)] _ IH]; [reflexivity|].
    simpl. rewrite Hc, Ht, Hp, Hcm. cbn [nonempty String.eqb negb andb orb py_eq_str].
    destruct (String.eqb_spec "" c) as [E|E]; [subst; contradiction|]. destruct c; [contradiction|exact IH]. }
  now rewrite Hf.
Qed.

Lemma find_build_no_identity_witness : find_build cfg_no_identity one_push = Ok None.
Proof.
  apply find_build_no_identity; try reflexivity.
  repeat constructor. exists [("commitId", JStr "abcdef1"); ("version", JStr "1")], "abcdef1".
  repeat split. discriminate.
Defined.

(** ** The polling loop and [main] *)

(** [get_job_ids] makes exactly one request, to the build endpoint. *)
Lemma get_job_ids_world answer rtt bv cfg w :
  snd (get_job_ids answer rtt bv cfg w)
  = mkWorld (trace w ++ [EvQuery (EBuild (owner cfg) (repo cfg) bv)]) (clock w + rtt (nqueries w)).
Proof.
  unfold get_job_ids, mbind at 1.
  destruct (query_api answer rtt (EBuild (owner cfg) (repo cfg) bv) w) as [[j|e] w1] eqn:E;
    unfold query_api in E; injection E as _ <-; [|reflexivity].
  repeat (apply keeps_bind; intros) || apply keeps_lift || apply keeps_raise
    || match goal with |- keeps_world (if ?b then _ else _) => destruct b end.
Qed.

(** Without [--timeout], a build whose jobs keep running is polled forever:
    every pass makes one build request and sleeps [SLEEP_FOR], the clock is
    never consulted, and after any number of passes the loop is still going. *)
Theorem poll_loop_no_timeout answer rtt fuel cfg bv t0 w :
  timeout cfg = "" ->
  (forall w1, exists ids, fst (get_job_ids answer rtt bv cfg w1) = Ok ids
                          /\ poll_status (owner cfg) (repo cfg) ids = Ok false) ->
  fst (poll_loop answer rtt fuel cfg bv t0 w) = Ok None
  /\ trace (snd (poll_loop answer rtt fuel cfg bv t0 w))
     = trace w ++ concat (repeat [EvQuery (EBuild (owner cfg) (repo cfg) bv); EvSleep SLEEP_FOR] fuel).
Proof.
  intros Ht Hrun. revert w. induction fuel as [|f IH]; intros w.
  - simpl. now rewrite app_nil_r.
  - destruct (Hrun w) as [ids [Hids Hps]].
    assert (Hw := get_job_ids_world answer rtt bv cfg w).
    destruct (get_job_ids answer rtt bv cfg w) as [r w1] eqn:E. simpl in Hids, Hw. subst r w1.
    set (w2 := mkWorld ((trace w ++ [EvQuery (EBuild (owner cfg) (repo cfg) bv)]) ++ [EvSleep SLEEP_FOR])
                       (clock w + rtt (nqueries w) + SLEEP_FOR)).
    assert (Hit : poll_loop answer rtt (S f) cfg bv t0 w = poll_loop answer rtt f cfg bv t0 w2).
    { cbn [poll_loop]. unfold poll_iteration at 1. rewrite mbind_assoc.
      rewrite (mbind_ok _ _ _ _ _ E). unfold mbind at 1 2, mlift at 1. rewrite Hps.
      rewrite Ht. reflexivity. }
    rewrite Hit. destruct (IH w2) as [H1 H2].
    split; [exact H1|]. rewrite H2. cbn [trace w2]. rewrite <- !app_assoc. reflexivity.
Qed.

Lemma poll_loop_no_timeout_witness :
  fst (poll_loop (remote_jobs [("a", "running")]) no_rtt 4 cfg_plain (JStr "1") 0 w0) = Ok None
  /\ trace (snd (poll_loop (remote_jobs [("a", "running")]) no_rtt 4 cfg_plain (JStr "1") 0 w0))
     = trace w0 ++ concat (repeat [EvQuery (EBuild "o" "r" (JStr "1")); EvSleep SLEEP_FOR] 4).
Proof.
  apply (poll_loop_no_timeout _ _ 4 cfg_plain (JStr "1") 0 w0); [reflexivity|].
  intros w1. exists [(JStr "a", JStr "running")]. split; [|reflexivity].
  rewrite (get_job_ids_listing _ _ _ _ _ [job_json "a" "running"]); [reflexivity|].
  exists 200, "", [("build", JObj [("jobs", JArr [job_json "a" "running"])])],
    [("jobs", JArr [job_json "a" "running"])].
  repeat split.
Defined.

(** When the first history request finds the build and the first poll sees
    it finished, [main] goes straight on: no sleep while queueing, the poll
    start time is the clock right after the history request, and the
    artifacts listed for the finished jobs are the result. *)
Theorem main_first_success answer rtt isdir fuel cfg w bv w1 ids w2 arts w3 :
  validate isdir cfg = Ok tt ->
  get_build_version answer rtt cfg w = (Ok (Some bv), w1) -> truthy bv = true ->
  poll_iteration answer rtt cfg bv (clock w1) w1 = (Ok (Some ids), w2) ->
  get_artifacts_urls answer rtt (map fst ids) w2 = (Ok arts, w3) ->
  main answer rtt isdir (S fuel) cfg w = (Ok (Some arts), w3).
Proof.
  intros Hv Hg Ht Hp Ha. unfold main.
  rewrite (mbind_ok (mlift (validate isdir cfg)) _ w w tt) by (unfold mlift; now rewrite Hv).
  rewrite (mbind_ok _ _ w w1 (Some bv)).
  2: { cbn [wait_queued]. rewrite (mbind_ok _ _ _ _ _ Hg). cbn [truthy_opt]. now rewrite Ht. }
  rewrite Ht. cbn [negb]. unfold mbind at 1, time_time at 1.
  rewrite (mbind_ok _ _ w1 w2 (Some ids)).
  2: { cbn [poll_loop]. now rewrite (mbind_ok _ _ _ _ _ Hp). }
  now rewrite (mbind_ok _ _ _ _ _ Ha).
Qed.

Lemma main_first_success_witness :
  main (remote_jobs [("a", "success")]) no_rtt any_dir 1 cfg_plain w0
  = (Ok (Some []),
     mkWorld [EvQuery (EHistory "o" "r"); EvQuery (EBuild "o" "r" (JStr "1"));
              EvQuery (EArtifacts (JStr "a"))] 0).
Proof.
  apply (main_first_success _ _ _ 0 cfg_plain w0 (JStr "1") (mkWorld [EvQuery (EHistory "o" "r")] 0)
           [(JStr "a", JStr "success")]
           (mkWorld [EvQuery (EHistory "o" "r"); EvQuery (EBuild "o" "r" (JStr "1"))] 0));
    vm_compute; reflexivity.
Defined.

Lemma main_first_query_raise answer rtt isdir fuel cfg w e :
  validate isdir cfg = Ok tt ->
  query_api_response (answer (nqueries w) (EHistory (owner cfg) (repo cfg))) = Raise e ->
  main answer rtt isdir fuel cfg w
  = (Raise e, mkWorld (trace w ++ [EvQuery (EHistory (owner cfg) (repo cfg))]) (clock w + rtt (nqueries w))).
Proof.
  intros Hv Hq. unfold main.
  rewrite (mbind_ok (mlift (validate isdir cfg)) _ w w tt) by (unfold mlift; now rewrite Hv).
  apply mbind_raise. cbn [wait_queued]. apply mbind_raise. unfold get_build_version.
  apply mbind_raise. unfold query_api. now rewrite Hq.
Qed.

(** The three attempts of the queue wait only retry a history that does not
    show the build yet: a reply timeout on the first history request ends
    [main] at once with the handled error, after one request and no sleep. *)
Theorem main_reply_timeout_no_retry answer rtt isdir fuel cfg w :
  validate isdir cfg = Ok tt ->
  answer (nqueries w) (EHistory (owner cfg) (repo cfg)) = TTimeout ->
  main answer rtt isdir fuel cfg w
  = (Raise (HandledError LogReplyTimeout),
     mkWorld (trace w ++ [EvQuery (EHistory (owner cfg) (repo cfg))]) (clock w + rtt (nqueries w))).
Proof. intros Hv Ha. apply main_first_query_raise; [exact Hv|]. now rewrite Ha. Qed.

Lemma main_reply_timeout_no_retry_witness :
  main timeout_remote slow_rtt any_dir 5 cfg_plain w0
  = (Raise (HandledError LogReplyTimeout), mkWorld [EvQuery (EHistory "o" "r")] 2).
Proof. apply (main_reply_timeout_no_retry timeout_remote slow_rtt any_dir 5 cfg_plain w0); reflexivity. Defined.

(** A connection failure other than a timeout is not handled anywhere: it
    leaves [entry_point] as an uncaught [ConnectionError]. *)
Theorem entry_point_connection_error answer rtt isdir os_environ args fuel cfg w :
  get_arguments os_environ None args = Ok cfg ->
  validate isdir cfg = Ok tt ->
  answer (nqueries w) (EHistory (owner cfg) (repo cfg)) = TConnError ->
  entry_point answer rtt isdir os_environ args fuel w
  = (Ok (Uncaught ConnectionError),
     mkWorld (trace w ++ [EvQuery (EHistory (owner cfg) (repo cfg))]) (clock w + rtt (nqueries w))).
Proof.
  intros Hg Hv Ha. unfold entry_point. rewrite Hg.
  rewrite (main_first_query_raise _ _ _ _ _ _ ConnectionError Hv); [reflexivity|]. now rewrite Ha.
Qed.

Lemma entry_point_connection_error_witness :
  entry_point refused_remote no_rtt any_dir travis_env no_args 3 w0
  = (Ok (Uncaught ConnectionError), mkWorld [EvQuery (EHistory "o" "r")] 0).
Proof.
  apply (entry_point_connection_error refused_remote no_rtt any_dir travis_env no_args 3
           (mkConfig false "abcdef1" "" "" "" "o" "" "r" "" "" false) w0); reflexivity.
Defined.

(** ** What [validate] guarantees *)








(** ** Artifact listing *)



